(** * The OSS Insight query client of the function-call notebook

    A shallow embedding of [get_ossinsight], the one function defined in
    [notebook/agentchat_oai_assistant_function_call.ipynb]: an HTTP POST to
    the OSS Insight question-answering endpoint followed by the rendering
    of the JSON answer as a multi-section text report.

    - Python objects decoded from JSON are the inductive type [pyval];
      dictionaries are association lists, because [str] prints them in
      insertion order.
    - Python exceptions are the [Raise] branch of [outcome].
    - The network is explicit state: a queue of replies that the remote
      end will give and the log of the requests sent so far. *)

From Stdlib Require Import String Ascii List ZArith NArith Bool Lia.
From Stdlib Require Import DecimalString DecimalZ DecimalPos.
Import ListNotations.
Open Scope string_scope.

(** ** Characters and text *)

(** Python text is modelled by [string]; one [ascii] is one character
    (a code point below 256). *)

Definition chr (n : N) : ascii := ascii_of_N n.

Definition nl : string := String (chr 10) EmptyString.
Definition backslash : ascii := chr 92.
Definition squote : ascii := chr 39.
Definition dquote : ascii := chr 34.

Definition str1 (c : ascii) : string := String c EmptyString.

Fixpoint has_char (c : ascii) (s : string) : bool :=
  match s with
  | EmptyString => false
  | String d s' => Ascii.eqb c d || has_char c s'
  end.

Fixpoint chars (s : string) : list ascii :=
  match s with
  | EmptyString => []
  | String c s' => c :: chars s'
  end.

(** [l.append(x)], as a new list. *)
Definition list_append {A} (l : list A) (x : A) : list A := (l ++ [x])%list.

(** [sep.join(parts)] *)
Definition join (sep : string) (parts : list string) : string :=
  String.concat sep parts.

(** [needle in hay], as a proposition. *)
Definition contains (hay needle : string) : Prop :=
  exists pre post, hay = pre ++ needle ++ post.

(** [s.startswith(p)], as a proposition. *)
Definition starts_with (s p : string) : Prop :=
  exists rest, s = p ++ rest.

(** A line of a text: a maximal run between newlines. *)
Fixpoint split_on (c : ascii) (s : string) : list string :=
  match s with
  | EmptyString => [EmptyString]
  | String d s' =>
      if Ascii.eqb c d then EmptyString :: split_on c s'
      else match split_on c s' with
           | [] => [str1 d]
           | l :: ls => String d l :: ls
           end
  end.

Definition lines (s : string) : list string := split_on (chr 10) s.

(** ** Python values *)

#[local] Set Warnings "-register-all".

Inductive pyval : Type :=
  | PNone
  | PBool (b : bool)
  | PInt (z : Z)
  | PFloat (shown : string)   (* a float, kept as the text Python prints for it *)
  | PStr (s : string)
  | PList (items : list pyval)
  | PDict (entries : list (string * pyval)).

(** Induction over values, with the hypothesis for every item of a list
    and every value of a dictionary. *)
Section pyval_induction.
Variable P : pyval -> Prop.
Hypothesis HNone : P PNone.
Hypothesis HBool : forall b, P (PBool b).
Hypothesis HInt : forall z, P (PInt z).
Hypothesis HFloat : forall shown, P (PFloat shown).
Hypothesis HStr : forall s, P (PStr s).
Hypothesis HList : forall items, Forall P items -> P (PList items).
Hypothesis HDict : forall entries, Forall (fun kv => P (snd kv)) entries -> P (PDict entries).

Fixpoint pyval_nested_ind (v : pyval) : P v :=
  match v with
  | PNone => HNone
  | PBool b => HBool b
  | PInt z => HInt z
  | PFloat shown => HFloat shown
  | PStr s => HStr s
  | PList items =>
      HList items
        ((fix all (l : list pyval) : Forall P l :=
            match l with
            | [] => Forall_nil P
            | x :: l' => Forall_cons x (pyval_nested_ind x) (all l')
            end) items)
  | PDict entries =>
      HDict entries
        ((fix all (l : list (string * pyval)) : Forall (fun kv => P (snd kv)) l :=
            match l with
            | [] => Forall_nil _
            | (k, x) :: l' => Forall_cons (k, x) (pyval_nested_ind x) (all l')
            end) entries)
  end.
End pyval_induction.

Inductive exn : Type :=
  | KeyError (key : string)
  | TypeError
  | AttributeError
  | JSONDecodeError
  | ConnectionError.

Inductive outcome (A : Type) : Type :=
  | Return (a : A)
  | Raise (e : exn).
Arguments Return {A} a.
Arguments Raise {A} e.

Definition bind {A B} (m : outcome A) (k : A -> outcome B) : outcome B :=
  match m with
  | Return a => k a
  | Raise e => Raise e
  end.

Notation "x <- m ;; k" := (bind m (fun x => k))
  (at level 61, m at next level, right associativity).

(** *** Built-in operations used by the function *)

Fixpoint assoc (k : string) (entries : list (string * pyval)) : option pyval :=
  match entries with
  | [] => None
  | (k', v) :: rest => if String.eqb k k' then Some v else assoc k rest
  end.

(** [v[k]] for a string key [k]. *)
Definition getitem (v : pyval) (k : string) : outcome pyval :=
  match v with
  | PDict entries =>
      match assoc k entries with
      | Some x => Return x
      | None => Raise (KeyError k)
      end
  | _ => Raise TypeError
  end.

(** [v.get(k, None)] *)
Definition dict_get (v : pyval) (k : string) : outcome pyval :=
  match v with
  | PDict entries =>
      match assoc k entries with
      | Some x => Return x
      | None => Return PNone
      end
  | _ => Raise AttributeError
  end.

(** [v is None] *)
Definition is_none (v : pyval) : bool :=
  match v with
  | PNone => true
  | _ => false
  end.

(** [len(v)] *)
Definition py_len (v : pyval) : outcome nat :=
  match v with
  | PList items => Return (List.length items)
  | PDict entries => Return (List.length entries)
  | PStr s => Return (String.length s)
  | _ => Raise TypeError
  end.

(** The values that [for x in v] runs through. *)
Definition py_iter (v : pyval) : outcome (list pyval) :=
  match v with
  | PList items => Return items
  | PDict entries => Return (map (fun kv => PStr (fst kv)) entries)
  | PStr s => Return (map (fun c => PStr (str1 c)) (chars s))
  | _ => Raise TypeError
  end.

(** [v != s] for a text [s]: a value of another type is never equal to a
    text. *)
Definition ne_str (v : pyval) (s : string) : bool :=
  match v with
  | PStr t => negb (String.eqb t s)
  | _ => true
  end.

(** *** [repr] and [str] *)

Definition hex_digit (n : N) : ascii :=
  chr (if (n <? 10)%N then 48 + n else 87 + n)%N.

Definition hex_escape (c : ascii) : string :=
  let n := N_of_ascii c in
  String backslash (String "x" (String (hex_digit (n / 16)) (str1 (hex_digit (n mod 16))))).

Definition printable (c : ascii) : bool :=
  let n := N_of_ascii c in
  ((32 <=? n) && (n <=? 126) || (161 <=? n) && negb (n =? 173))%N.

Definition repr_char (quote c : ascii) : string :=
  let n := N_of_ascii c in
  if Ascii.eqb c quote || Ascii.eqb c backslash then String backslash (str1 c)
  else if (n =? 9)%N then String backslash "t"
  else if (n =? 10)%N then String backslash "n"
  else if (n =? 13)%N then String backslash "r"
  else if printable c then str1 c
  else hex_escape c.

Fixpoint repr_chars (quote : ascii) (s : string) : string :=
  match s with
  | EmptyString => EmptyString
  | String c s' => repr_char quote c ++ repr_chars quote s'
  end.

(** [repr] of a text: single quotes, unless the text has a single quote and
    no double quote. *)
Definition repr_str (s : string) : string :=
  let quote := if has_char squote s && negb (has_char dquote s) then dquote else squote in
  String quote (repr_chars quote s ++ str1 quote).

Definition str_int (z : Z) : string := NilZero.string_of_int (Z.to_int z).

Fixpoint py_repr (v : pyval) : string :=
  match v with
  | PNone => "None"
  | PBool true => "True"
  | PBool false => "False"
  | PInt z => str_int z
  | PFloat shown => shown
  | PStr s => repr_str s
  | PList items => "[" ++ join ", " (map py_repr items) ++ "]"
  | PDict entries =>
      "{" ++ join ", " (map (fun kv : string * pyval =>
                              let (k, x) := kv in repr_str k ++ ": " ++ py_repr x) entries) ++ "}"
  end.

(** [str(v)], which is also what an f-string field [{v}] gives. *)
Definition py_str (v : pyval) : string :=
  match v with
  | PStr s => s
  | _ => py_repr v
  end.

(** The printed text of a float has no line break; [single_line_floats v]
    says so of every float inside [v]. *)
Fixpoint single_line_floats (v : pyval) : bool :=
  match v with
  | PFloat shown => negb (has_char (chr 10) shown)
  | PList items => forallb single_line_floats items
  | PDict entries =>
      forallb (fun kv : string * pyval => let (_, x) := kv in single_line_floats x) entries
  | _ => true
  end.

(** A row record: a mapping from column names to values. *)
Definition mapping_row (row : pyval) : bool :=
  match row with
  | PDict _ => single_line_floats row
  | _ => false
  end.

(** ** The network *)

Record Request : Type := mkRequest {
  req_method : string;
  req_url : string;
  req_headers : list (string * string);
  req_json : pyval
}.

Record Response : Type := mkResponse {
  status_code : Z;
  body_json : option pyval   (* the decoded body; [None] when it is not JSON *)
}.

Record Network : Type := mkNetwork {
  replies : list Response;   (* what the remote end answers, in order *)
  sent : list Request        (* the requests issued so far, oldest first *)
}.

Definition io (A : Type) : Type := Network -> outcome A * Network.

Definition io_bind {A B} (m : io A) (k : A -> io B) : io B :=
  fun w =>
    match m w with
    | (Return a, w') => k a w'
    | (Raise e, w') => (Raise e, w')
    end.

Definition io_lift {A} (m : outcome A) : io A := fun w => (m, w).

Notation "x <~ m ;; k" := (io_bind m (fun x => k))
  (at level 61, m at next level, right associativity).

(** [requests.post(url, headers=headers, json=data)]: the request goes out,
    and the next reply comes back; with no reply the transport fails. *)
Definition requests_post (url : string) (headers : list (string * string)) (data : pyval)
  : io Response :=
  fun w =>
    let out := list_append (sent w) (mkRequest "POST" url headers data) in
    match replies w with
    | [] => (Raise ConnectionError, mkNetwork [] out)
    | r :: rest => (Return r, mkNetwork rest out)
    end.

(** [response.json()] *)
Definition response_json (r : Response) : outcome pyval :=
  match body_json r with
  | Some v => Return v
  | None => Raise JSONDecodeError
  end.

(** ** [get_ossinsight] *)

Definition url : string := "https://api.ossinsight.io/explorer/answer".
Definition headers : list (string * string) := [("Content-Type", "application/json")].

(** The part of [get_ossinsight] that follows the status check: the local
    list [report_components] as it stands just before the final join.  The
    lookups are made as often and in the order in which the source makes
    them. *)
Definition report_components (answer : pyval) : outcome (list string) :=
  let report_components : list string := [] in
  q <- getitem answer "question" ;;
  title <- getitem q "title" ;;
  let report_components := list_append report_components ("Question: " ++ py_str title) in
  qy <- getitem answer "query" ;;
  sql <- getitem qy "sql" ;;
  report_components <-
    (if ne_str sql EmptyString then
       qy' <- getitem answer "query" ;;
       sql' <- getitem qy' "sql" ;;
       Return (list_append report_components ("querySQL: " ++ py_str sql'))
     else Return report_components) ;;
  res <- dict_get answer "result" ;;
  result <-
    (if is_none res then Return "Result: N/A"
     else
       res' <- getitem answer "result" ;;
       rows <- getitem res' "rows" ;;
       n <- py_len rows ;;
       if Nat.eqb n 0 then Return "Result: N/A"
       else
         res'' <- getitem answer "result" ;;
         rows' <- getitem res'' "rows" ;;
         each <- py_iter rows' ;;
         Return ("Result:" ++ nl ++ "  " ++ join (nl ++ "  ") (map py_str each))) ;;
  let report_components := list_append report_components result in
  err <- dict_get answer "error" ;;
  if negb (is_none err) then
    err' <- getitem answer "error" ;;
    Return (list_append report_components ("Error: " ++ py_str err'))
  else Return report_components.

Definition get_ossinsight (question : string) : io string :=
  let data := PDict [("question", PStr question); ("ignoreCache", PBool true)] in
  response <~ requests_post url headers data ;;
  if (status_code response =? 200)%Z then
    io_lift (answer <- response_json response ;;
             components <- report_components answer ;;
             Return (join (nl ++ nl) components))
  else
    io_lift (Return ("Request to " ++ url ++ " failed with status code: "
                     ++ py_str (PInt (status_code response)))).

(** ** The answers the report is specified for *)

(** The four fields of an answer that the report is made of.  A field that
    is absent from the body or [None] in it is [None] here. *)
Record Answer : Type := mkAnswer {
  ans_title : pyval;                 (* answer['question']['title'] *)
  ans_sql : pyval;                   (* answer['query']['sql'] *)
  ans_rows : option (list pyval);    (* answer['result']['rows'] *)
  ans_error : option pyval           (* answer['error'] *)
}.

(** Reading the fields off a decoded body: [question.title] and
    [query.sql] must be there, [result] is absent, [None] or has a list
    under [rows], and [error] is absent, [None] or a value. *)
Definition answer_fields (a : pyval) : option Answer :=
  match (q <- getitem a "question" ;; getitem q "title"),
        (qy <- getitem a "query" ;; getitem qy "sql"),
        dict_get a "result", dict_get a "error" with
  | Return t, Return s, Return res, Return err =>
      let e := if is_none err then None else Some err in
      if is_none res then Some (mkAnswer t s None e)
      else match getitem res "rows" with
           | Return (PList rows) => Some (mkAnswer t s (Some rows) e)
           | _ => None
           end
  | _, _, _, _ => None
  end.

(** The body that the success path works on: the next reply has status 200
    and a body that decodes. *)
Definition success_body (w : Network) : option pyval :=
  match replies w with
  | r :: _ => if (status_code r =? 200)%Z then body_json r else None
  | [] => None
  end.

(** The request that a call with [question] puts on the wire. *)
Definition request_for (question : string) : Request :=
  mkRequest "POST" "https://api.ossinsight.io/explorer/answer"
            [("Content-Type", "application/json")]
            (PDict [("question", PStr question); ("ignoreCache", PBool true)]).

(** The sections in the words of the specification, steps 1 to 4 of the
    success path; compared with [report_components] below. *)
Definition spec_sql_section (f : Answer) : list string :=
  if ne_str (ans_sql f) EmptyString then ["querySQL: " ++ py_str (ans_sql f)] else [].

Definition spec_result_section (f : Answer) : string :=
  match ans_rows f with
  | None | Some [] => "Result: N/A"
  | Some rows => "Result:" ++ String.concat EmptyString (map (fun row => nl ++ "  " ++ py_str row) rows)
  end.

Definition spec_error_section (f : Answer) : list string :=
  match ans_error f with
  | None => []
  | Some e => ["Error: " ++ py_str e]
  end.

Definition spec_sections (f : Answer) : list string :=
  ("Question: " ++ py_str (ans_title f))
    :: (spec_sql_section f ++ spec_result_section f :: spec_error_section f)%list.

(** ** The termination check of the user proxy *)

(** [needle in hay] for two texts: [needle] starts at some position of
    [hay]. *)
Fixpoint find_sub (needle hay : string) : bool :=
  String.prefix needle hay
  || match hay with
     | EmptyString => false
     | String _ hay' => find_sub needle hay'
     end.

(** [needle in v] for a text [needle]: a substring test on a text, a test
    for an equal item on a list, a test for a key on a dictionary. *)
Definition py_in (needle : string) (v : pyval) : outcome bool :=
  match v with
  | PStr s => Return (find_sub needle s)
  | PList items =>
      Return (existsb (fun x => match x with
                                | PStr t => String.eqb t needle
                                | _ => false
                                end) items)
  | PDict entries =>
      Return (existsb (fun kv : string * pyval => String.eqb (fst kv) needle) entries)
  | _ => Raise TypeError
  end.

(** [lambda msg: "TERMINATE" in msg["content"]] *)
Definition is_termination_msg (msg : pyval) : outcome bool :=
  content <- getitem msg "content" ;;
  py_in "TERMINATE" content.

(** ** The keys looked up without a default *)


(** ** Sample replies *)

(** A body of the expected shape: one row, a query text and no error. *)
Definition sample_answer : pyval :=
  PDict [("question", PDict [("title", PStr "Top developers")]);
         ("query", PDict [("sql", PStr "SELECT login FROM users")]);
         ("result", PDict [("rows", PList [PDict [("login", PStr "torvalds"); ("followers", PInt 9)]])]);
         ("error", PNone)].

Definition sample_fields : Answer :=
  mkAnswer (PStr "Top developers") (PStr "SELECT login FROM users")
           (Some [PDict [("login", PStr "torvalds"); ("followers", PInt 9)]]) None.

Definition sample_network : Network :=
  mkNetwork [mkResponse 200 (Some sample_answer)] [].

(** A body of the expected shape with an error text and no result. *)
Definition failed_answer : pyval :=
  PDict [("question", PDict [("title", PStr "Top developers")]);
         ("query", PDict [("sql", PStr EmptyString)]);
         ("result", PNone);
         ("error", PStr "query timed out")].

Definition failed_fields : Answer :=
  mkAnswer (PStr "Top developers") (PStr EmptyString) None (Some (PStr "query timed out")).

Definition failed_network : Network :=
  mkNetwork [mkResponse 200 (Some failed_answer)] [].

(** An answer with an empty query text whose title runs over two lines, the
    second of which starts with the word querySQL. *)
Definition two_line_title_answer : pyval :=
  PDict [("question", PDict [("title", PStr ("Stars" ++ nl ++ "querySQL: none"))]);
         ("query", PDict [("sql", PStr EmptyString)]);
         ("result", PNone)].

(** A body with a title, an empty query text and the given [result]. *)
Definition with_result (res : pyval) : pyval :=
  PDict [("question", PDict [("title", PStr "Top developers")]);
         ("query", PDict [("sql", PStr EmptyString)]);
         ("result", res)].

(** Two messages of a conversation: one whose content is a text, one whose
    content is a list of parts. *)
Definition closing_message : list (string * pyval) :=
  [("role", PStr "assistant"); ("content", PStr "All done. TERMINATE")].

Definition parts_message : list (string * pyval) :=
  [("role", PStr "assistant"); ("content", PList [PStr "All done. TERMINATE"])].

(** ** Text lemmas *)

Lemma append_nil_r (s : string) : s ++ EmptyString = s.
Proof. induction s as [|c s IH]; simpl; [reflexivity | now rewrite IH]. Qed.

Lemma append_assoc (s t u : string) : (s ++ t) ++ u = s ++ (t ++ u).
Proof. induction s as [|c s IH]; simpl; [reflexivity | now rewrite IH]. Qed.

Lemma join_snoc (sep : string) (l : list string) (x : string) :
  l <> [] -> join sep (list_append l x) = join sep l ++ sep ++ x.
Proof.
  unfold join, list_append.
  induction l as [|y l IH]; intros Hne; [contradiction|].
  destruct l as [|z l].
  - reflexivity.
  - change (String.concat sep ((y :: z :: l) ++ [x])%list)
      with (y ++ sep ++ String.concat sep ((z :: l) ++ [x])%list).
    rewrite IH by discriminate.
    change (String.concat sep (y :: z :: l)) with (y ++ sep ++ String.concat sep (z :: l)).
    now rewrite !append_assoc.
Qed.

(** Joining with a separator put in front is the same as putting the
    separator in front of every part. *)
Lemma join_prefixed (sep : string) (f : pyval -> string) (l : list pyval) :
  l <> [] ->
  sep ++ join sep (map f l) = String.concat EmptyString (map (fun x => sep ++ f x) l).
Proof.
  unfold join.
  induction l as [|x l IH]; intros Hne; [contradiction|].
  destruct l as [|y l].
  - reflexivity.
  - change (String.concat sep (map f (x :: y :: l)))
      with (f x ++ sep ++ String.concat sep (map f (y :: l))).
    rewrite IH by discriminate.
    change (map (fun x0 => sep ++ f x0) (x :: y :: l))
      with ((sep ++ f x) :: map (fun x0 => sep ++ f x0) (y :: l)).
    remember (map (fun x0 => sep ++ f x0) (y :: l)) as tl eqn:Htl.
    destruct tl as [|t tl]; [discriminate|].
    change (String.concat EmptyString ((sep ++ f x) :: t :: tl))
      with ((sep ++ f x) ++ EmptyString ++ String.concat EmptyString (t :: tl)).
    simpl. now rewrite append_assoc.
Qed.

(** ** Lines *)

Lemma has_char_app (c : ascii) (s t : string) :
  has_char c (s ++ t) = has_char c s || has_char c t.
Proof.
  induction s as [|d s IH]; simpl; [reflexivity|].
  now rewrite IH, orb_assoc.
Qed.

Lemma split_on_app (c : ascii) (s t : string) :
  has_char c s = false -> split_on c (s ++ String c t) = s :: split_on c t.
Proof.
  induction s as [|d s IH]; simpl; intros H.
  - now rewrite Ascii.eqb_refl.
  - apply orb_false_iff in H. destruct H as [Hd Hs].
    rewrite Hd, (IH Hs). reflexivity.
Qed.

Lemma split_on_none (c : ascii) (s : string) :
  has_char c s = false -> split_on c s = [s].
Proof.
  induction s as [|d s IH]; simpl; intros H; [reflexivity|].
  apply orb_false_iff in H. destruct H as [Hd Hs].
  rewrite Hd, (IH Hs). reflexivity.
Qed.

Lemma concat_empty_cons (x : string) (xs : list string) :
  String.concat EmptyString (x :: xs) = x ++ String.concat EmptyString xs.
Proof. destruct xs; simpl; [now rewrite append_nil_r | reflexivity]. Qed.

Lemma lines_listing (f : pyval -> string) (rows : list pyval) (p : string) :
  has_char (chr 10) p = false ->
  Forall (fun row => has_char (chr 10) (f row) = false) rows ->
  lines (p ++ String.concat EmptyString (map (fun row => nl ++ "  " ++ f row) rows))
  = p :: map (fun row => "  " ++ f row) rows.
Proof.
  unfold lines. revert p.
  induction rows as [|row rows IH]; intros p Hp Hrows.
  - simpl. rewrite append_nil_r. now apply split_on_none.
  - inversion Hrows as [|? ? Hrow Hrest]; subst.
    cbn [map]. rewrite concat_empty_cons.
    set (rest := String.concat EmptyString (map (fun r => nl ++ "  " ++ f r) rows)) in *.
    set (line := "  " ++ f row).
    change ((nl ++ line) ++ rest) with (String (chr 10) (line ++ rest)).
    rewrite (split_on_app _ _ _ Hp). f_equal.
    apply IH; [|assumption].
    unfold line. rewrite has_char_app, Hrow. reflexivity.
Qed.

Lemma repr_char_single_line (quote c : ascii) :
  quote = squote \/ quote = dquote -> has_char (chr 10) (repr_char quote c) = false.
Proof.
  intros [-> | ->];
    destruct c as [[] [] [] [] [] [] [] []]; vm_compute; reflexivity.
Qed.

Lemma repr_chars_single_line (quote : ascii) (s : string) :
  quote = squote \/ quote = dquote -> has_char (chr 10) (repr_chars quote s) = false.
Proof.
  intros Hq. induction s as [|c s IH]; [reflexivity|].
  cbn [repr_chars]. rewrite has_char_app, (repr_char_single_line _ _ Hq). exact IH.
Qed.

Lemma repr_str_single_line (s : string) : has_char (chr 10) (repr_str s) = false.
Proof.
  unfold repr_str.
  destruct (has_char squote s && negb (has_char dquote s));
    cbn [has_char]; rewrite has_char_app, repr_chars_single_line by auto; reflexivity.
Qed.

Lemma str_int_single_line (z : Z) : has_char (chr 10) (str_int z) = false.
Proof.
  assert (Hu : forall u, has_char (chr 10) (NilEmpty.string_of_uint u) = false)
    by (induction u; simpl; auto).
  assert (Hz : forall u, has_char (chr 10) (NilZero.string_of_uint u) = false)
    by (intros u; destruct u; try reflexivity; apply (Hu (_ _))).
  unfold str_int. destruct (Z.to_int z) as [u|u]; simpl; auto.
Qed.

Lemma join_single_line (sep : string) (parts : list string) :
  has_char (chr 10) sep = false ->
  Forall (fun s => has_char (chr 10) s = false) parts ->
  has_char (chr 10) (join sep parts) = false.
Proof.
  intros Hsep. unfold join.
  induction parts as [|x parts IH]; intros H; [reflexivity|].
  inversion H as [|? ? Hx Hrest]; subst.
  destruct parts as [|y parts]; [exact Hx|].
  change (String.concat sep (x :: y :: parts)) with (x ++ sep ++ String.concat sep (y :: parts)).
  rewrite !has_char_app, Hx, Hsep. apply IH, Hrest.
Qed.

Lemma py_repr_single_line (v : pyval) :
  single_line_floats v = true -> has_char (chr 10) (py_repr v) = false.
Proof.
  induction v as [ |b|z|shown|s|items IH|entries IH] using pyval_nested_ind; intros Hv.
  - reflexivity.
  - destruct b; reflexivity.
  - apply str_int_single_line.
  - simpl in Hv. now apply negb_true_iff in Hv.
  - apply repr_str_single_line.
  - cbn [py_repr]. cbn [append has_char]. rewrite has_char_app.
    rewrite join_single_line; [reflexivity | reflexivity |].
    cbn [single_line_floats] in Hv. rewrite forallb_forall in Hv.
    rewrite Forall_forall in *. intros s Hs. apply in_map_iff in Hs.
    destruct Hs as (x & <- & Hx). apply IH; auto.
  - cbn [py_repr]. cbn [append has_char]. rewrite has_char_app.
    rewrite join_single_line; [reflexivity | reflexivity |].
    cbn [single_line_floats] in Hv. rewrite forallb_forall in Hv.
    rewrite Forall_forall in *. intros s Hs. apply in_map_iff in Hs.
    destruct Hs as ([k x] & <- & Hx).
    rewrite !has_char_app, repr_str_single_line. cbn [has_char orb].
    apply (IH (k, x) Hx). apply (Hv (k, x) Hx).
Qed.

Lemma split_on_nonempty (c : ascii) (s : string) : split_on c s <> [].
Proof.
  destruct s as [|d s]; simpl; [discriminate|].
  destruct (Ascii.eqb c d); [discriminate|].
  destruct (split_on c s); discriminate.
Qed.

Lemma split_on_sep (c : ascii) (s t : string) :
  split_on c (s ++ String c t) = (split_on c s ++ split_on c t)%list.
Proof.
  induction s as [|d s IH]; simpl.
  - now rewrite Ascii.eqb_refl.
  - rewrite IH. destruct (Ascii.eqb c d); [reflexivity|].
    pose proof (split_on_nonempty c s) as Hne.
    destruct (split_on c s) as [|l ls]; [contradiction | reflexivity].
Qed.

Lemma lines_join_blank (sections : list string) (l : string) :
  In l (lines (join (nl ++ nl) sections)) ->
  l = EmptyString \/ exists s, In s sections /\ In l (lines s).
Proof.
  unfold lines, join.
  induction sections as [|x sections IH]; intros H.
  - destruct H as [<-|[]]. now left.
  - destruct sections as [|y sections].
    + right. exists x. split; [now left | exact H].
    + change (String.concat (nl ++ nl) (x :: y :: sections))
        with (x ++ String (chr 10) (String (chr 10) (String.concat (nl ++ nl) (y :: sections)))) in H.
      rewrite split_on_sep in H. apply in_app_or in H. destruct H as [H|H].
      * right. exists x. split; [now left | exact H].
      * change (String (chr 10) (String.concat (nl ++ nl) (y :: sections)))
          with (EmptyString ++ String (chr 10) (String.concat (nl ++ nl) (y :: sections))) in H.
        rewrite split_on_sep in H. destruct H as [<-|H]; [now left|].
        destruct (IH H) as [->|(s & Hs & Hl)]; [now left|].
        right. exists s. split; [now right | exact Hl].
Qed.

Lemma lines_one (p t : string) :
  has_char (chr 10) p = false -> has_char (chr 10) t = false -> lines (p ++ t) = [p ++ t].
Proof.
  intros Hp Ht. apply split_on_none. now rewrite has_char_app, Hp, Ht.
Qed.

Lemma mapping_row_single_line (row : pyval) :
  mapping_row row = true -> has_char (chr 10) (py_str row) = false.
Proof.
  destruct row; try discriminate. intros H. now apply (py_repr_single_line (PDict entries)).
Qed.

(** ** The built-ins on answers of the expected shape *)

Lemma getitem_of_get (a v : pyval) (k : string) :
  dict_get a k = Return v -> is_none v = false -> getitem a k = Return v.
Proof.
  destruct a; simpl; try discriminate.
  destruct (assoc k entries) as [x|]; intros H Hv.
  - exact H.
  - injection H as <-. discriminate.
Qed.

Lemma bind_return {A B} (m : outcome A) (k : A -> outcome B) (b : B) :
  bind m k = Return b -> exists a, m = Return a /\ k a = Return b.
Proof. destruct m as [a|e]; simpl; [eauto | discriminate]. Qed.

(** The code computes the sections that the specification lists. *)
Lemma report_components_spec (a : pyval) (f : Answer) :
  answer_fields a = Some f -> report_components a = Return (spec_sections f).
Proof.
  unfold answer_fields.
  destruct (getitem a "question") as [q|] eqn:Hq; simpl; [|discriminate].
  destruct (getitem q "title") as [t|] eqn:Ht; [|discriminate].
  destruct (getitem a "query") as [qy|] eqn:Hqy; simpl; [|discriminate].
  destruct (getitem qy "sql") as [s|] eqn:Hs; [|discriminate].
  destruct (dict_get a "result") as [res|] eqn:Hres; [|discriminate].
  destruct (dict_get a "error") as [err|] eqn:Herr; [|discriminate].
  intros H.
  assert (Herr' : is_none err = false -> getitem a "error" = Return err)
    by (apply getitem_of_get; exact Herr).
  unfold report_components.
  destruct (is_none res) eqn:Hnone.
  - injection H as <-.
    destruct (ne_str s EmptyString) eqn:Hne; destruct (is_none err) eqn:He;
      repeat (first [ rewrite Hq | rewrite Ht | rewrite Hqy | rewrite Hs | rewrite Hne
                    | rewrite Hres | rewrite Hnone | rewrite Herr | rewrite He
                    | rewrite Herr' by reflexivity ]; cbn [bind negb]);
      unfold spec_sections, spec_sql_section, spec_error_section, spec_result_section;
      cbn [ans_title ans_sql ans_rows ans_error list_append app];
      rewrite Hne; reflexivity.
  - pose proof (getitem_of_get _ _ _ Hres Hnone) as Hres'.
    destruct (getitem res "rows") as [rows|] eqn:Hrows; [|discriminate].
    destruct rows as [| | | | |rows|]; try discriminate.
    injection H as <-.
    assert (Hrender : forall r rs,
      "Result:" ++ nl ++ "  " ++ join (nl ++ "  ") (map py_str (r :: rs))
      = "Result:" ++ String.concat EmptyString (map (fun row => nl ++ "  " ++ py_str row) (r :: rs))).
    { intros r rs. f_equal.
      transitivity ((nl ++ "  ") ++ join (nl ++ "  ") (map py_str (r :: rs))).
      - now rewrite append_assoc.
      - rewrite join_prefixed by discriminate.
        rewrite (map_ext (fun x => (nl ++ "  ") ++ py_str x)
                         (fun row => nl ++ "  " ++ py_str row)); [reflexivity|].
        intros row. now rewrite append_assoc. }
    destruct (ne_str s EmptyString) eqn:Hne; destruct rows as [|r rs];
      destruct (is_none err) eqn:He;
      repeat (first [ rewrite Hq | rewrite Ht | rewrite Hqy | rewrite Hs | rewrite Hne
                    | rewrite Hres | rewrite Hnone | rewrite Hres' | rewrite Hrows
                    | rewrite Herr | rewrite He | rewrite Herr' by reflexivity ];
              cbn [bind negb py_len py_iter length Nat.eqb]);
      unfold spec_sections, spec_sql_section, spec_error_section, spec_result_section;
      cbn [ans_title ans_sql ans_rows ans_error list_append app];
      rewrite Hne; try rewrite Hrender; reflexivity.
Qed.

(** ** One call, step by step *)

(** What one call does to the network and what it gives back. *)
Lemma get_ossinsight_run (question : string) (w : Network) :
  get_ossinsight question w =
  match replies w with
  | [] => (Raise ConnectionError,
           mkNetwork [] (list_append (sent w) (request_for question)))
  | r :: rest =>
      (if (status_code r =? 200)%Z then
         answer <- response_json r ;;
         components <- report_components answer ;;
         Return (join (nl ++ nl) components)
       else
         Return ("Request to " ++ url ++ " failed with status code: "
                 ++ py_str (PInt (status_code r))),
       mkNetwork rest (list_append (sent w) (request_for question)))
  end.
Proof.
  unfold get_ossinsight, io_bind, requests_post, io_lift, request_for.
  destruct (replies w) as [|r rest]; [reflexivity|].
  destruct (status_code r =? 200)%Z; reflexivity.
Qed.

Lemma success_body_inv (w : Network) (a : pyval) :
  success_body w = Some a ->
  exists r rest, replies w = r :: rest /\ status_code r = 200%Z /\ body_json r = Some a.
Proof.
  unfold success_body. destruct (replies w) as [|r rest]; [discriminate|].
  destruct (status_code r =? 200)%Z eqn:E; [|discriminate].
  intros H. exists r, rest. apply Z.eqb_eq in E. auto.
Qed.

Lemma get_ossinsight_success (question : string) (w : Network) (a : pyval) :
  success_body w = Some a ->
  fst (get_ossinsight question w) =
  (components <- report_components a ;; Return (join (nl ++ nl) components)).
Proof.
  intros H. destruct (success_body_inv _ _ H) as (r & rest & Hr & Hs & Hb).
  rewrite get_ossinsight_run, Hr. cbn [fst].
  rewrite Hs. cbn [Z.eqb Pos.eqb]. unfold response_json. now rewrite Hb.
Qed.

Lemma get_ossinsight_report (question : string) (w : Network) (a : pyval) (cs : list string) :
  success_body w = Some a -> report_components a = Return cs ->
  fst (get_ossinsight question w) = Return (join (nl ++ nl) cs).
Proof.
  intros H Hcs. rewrite (get_ossinsight_success _ _ _ H), Hcs. reflexivity.
Qed.

(** ** Telling the sections apart by their first word *)

Ltac other_word :=
  let H := fresh in
  intros [? H]; cbn [append] in H; discriminate H.

Lemma starts_with_app (p rest : string) : starts_with (p ++ rest) p.
Proof. now exists rest. Qed.

Lemma result_word (f : Answer) : starts_with (spec_result_section f) "Result".
Proof.
  unfold spec_result_section.
  destruct (ans_rows f) as [[|r rs]|].
  - now exists ": N/A".
  - now exists (":" ++ String.concat EmptyString (map (fun row => nl ++ "  " ++ py_str row) (r :: rs))).
  - now exists ": N/A".
Qed.

Create HintDb sections.
#[local] Hint Resolve starts_with_app : sections.

(** The lines of the result section of an answer whose rows are mappings. *)
Lemma result_section_lines (f : Answer) (l : string) :
  (forall rows, ans_rows f = Some rows -> forallb mapping_row rows = true) ->
  In l (lines (spec_result_section f)) ->
  starts_with l "Result" \/ starts_with l "  ".
Proof.
  intros Hrows. unfold spec_result_section.
  destruct (ans_rows f) as [[|r rs]|] eqn:E.
  - intros [<-|[]]. left. now exists ": N/A".
  - rewrite lines_listing.
    + intros [<-|H]; [left; now exists ":"|].
      apply in_map_iff in H. destruct H as (row & <- & _). right. auto with sections.
    + reflexivity.
    + specialize (Hrows _ eq_refl). rewrite forallb_forall in Hrows.
      apply Forall_forall. intros row Hin. apply mapping_row_single_line, Hrows, Hin.
  - intros [<-|[]]. left. now exists ": N/A".
Qed.

Lemma ne_str_empty (v : pyval) : ne_str v EmptyString = true <-> v <> PStr EmptyString.
Proof.
  destruct v; simpl; try (split; [discriminate | reflexivity]).
  destruct s as [|c s]; simpl.
  - split; [discriminate | intros H; now elim H].
  - split; [discriminate | reflexivity].
Qed.

#[local] Hint Resolve result_word : sections.

(** ** The report of the success path *)

(** C1: on the success path the returned report is the blank-line join of
    the emitted sections, and the sections come in one fixed order: the
    question section, then the query section if it is emitted, then the
    result section, then the error section if it is emitted; nothing else
    is emitted. *)
Theorem report_is_join_of_ordered_sections (question : string) (w : Network)
    (a : pyval) (f : Answer) :
  success_body w = Some a -> answer_fields a = Some f ->
  exists sql_part result error_part,
    let sections :=
      ("Question: " ++ py_str (ans_title f)) :: (sql_part ++ result :: error_part)%list in
    report_components a = Return sections
    /\ fst (get_ossinsight question w) = Return (join (nl ++ nl) sections)
    /\ (sql_part = [] \/ sql_part = ["querySQL: " ++ py_str (ans_sql f)])
    /\ starts_with result "Result"
    /\ (error_part = [] \/ exists e, ans_error f = Some e /\ error_part = ["Error: " ++ py_str e]).
Proof.
  intros Hw Hf.
  pose proof (report_components_spec _ _ Hf) as Hcs.
  exists (spec_sql_section f), (spec_result_section f), (spec_error_section f).
  cbv zeta. split; [exact Hcs|]. split.
  - now apply (get_ossinsight_report question w a).
  - repeat split.
    + unfold spec_sql_section. destruct (ne_str (ans_sql f) EmptyString); auto.
    + auto with sections.
    + unfold spec_error_section. destruct (ans_error f) as [e|]; eauto.
Qed.

Lemma report_is_join_of_ordered_sections_witness :
  exists sql_part result error_part,
    let sections :=
      ("Question: " ++ py_str (ans_title sample_fields))
        :: (sql_part ++ result :: error_part)%list in
    report_components sample_answer = Return sections
    /\ fst (get_ossinsight "who leads?" sample_network) = Return (join (nl ++ nl) sections)
    /\ (sql_part = [] \/ sql_part = ["querySQL: " ++ py_str (ans_sql sample_fields)])
    /\ starts_with result "Result"
    /\ (error_part = [] \/
        exists e, ans_error sample_fields = Some e /\ error_part = ["Error: " ++ py_str e]).
Proof.
  apply (report_is_join_of_ordered_sections "who leads?" sample_network
           sample_answer sample_fields); reflexivity.
Defined.

(** C3: on the success path the result section, the one emitted section
    that starts with the word Result, is exactly the text Result: N/A when
    the result is absent or null or has no rows; otherwise it is Result:
    followed, for each row in order, by a newline, two spaces and the row
    as [str] prints it.  When the rows are mappings, the section has one
    line for the word Result: and then one line for each row. *)
Theorem result_section_text (question : string) (w : Network) (a : pyval) (f : Answer) :
  success_body w = Some a -> answer_fields a = Some f ->
  exists before result after,
    report_components a = Return (before ++ result :: after)%list
    /\ fst (get_ossinsight question w) = Return (join (nl ++ nl) (before ++ result :: after)%list)
    /\ starts_with result "Result"
    /\ Forall (fun s => ~ starts_with s "Result") (before ++ after)%list
    /\ (ans_rows f = None \/ ans_rows f = Some [] -> result = "Result: N/A")
    /\ (forall rows, ans_rows f = Some rows -> rows <> [] ->
        result = "Result:" ++ String.concat EmptyString
                                (map (fun row => nl ++ "  " ++ py_str row) rows)
        /\ (forallb mapping_row rows = true ->
            lines result = "Result:" :: map (fun row => "  " ++ py_str row) rows)).
Proof.
  intros Hw Hf.
  pose proof (report_components_spec _ _ Hf) as Hcs.
  exists (("Question: " ++ py_str (ans_title f)) :: spec_sql_section f),
         (spec_result_section f), (spec_error_section f).
  split; [exact Hcs|]. split; [now apply (get_ossinsight_report question w a)|].
  split; [auto with sections|]. split; [|split].
  - unfold spec_sql_section, spec_error_section.
    destruct (ne_str (ans_sql f) EmptyString); destruct (ans_error f);
      cbn [app]; repeat constructor; other_word.
  - unfold spec_result_section. intros [H|H]; rewrite H; reflexivity.
  - unfold spec_result_section. intros rows H Hne. rewrite H.
    destruct rows as [|r rs]; [contradiction|]. split; [reflexivity|].
    intros Hrows. apply lines_listing; [reflexivity|].
    rewrite forallb_forall in Hrows. apply Forall_forall.
    intros row Hin. apply mapping_row_single_line, Hrows, Hin.
Qed.

Lemma result_section_text_witness :
  exists before result after,
    report_components sample_answer = Return (before ++ result :: after)%list
    /\ fst (get_ossinsight "who leads?" sample_network)
       = Return (join (nl ++ nl) (before ++ result :: after)%list)
    /\ starts_with result "Result"
    /\ Forall (fun s => ~ starts_with s "Result") (before ++ after)%list
    /\ (ans_rows sample_fields = None \/ ans_rows sample_fields = Some [] -> result = "Result: N/A")
    /\ (forall rows, ans_rows sample_fields = Some rows -> rows <> [] ->
        result = "Result:" ++ String.concat EmptyString
                                (map (fun row => nl ++ "  " ++ py_str row) rows)
        /\ (forallb mapping_row rows = true ->
            lines result = "Result:" :: map (fun row => "  " ++ py_str row) rows)).
Proof.
  apply (result_section_text "who leads?" sample_network sample_answer sample_fields);
    reflexivity.
Defined.

(** C4, as stated, fails: with an empty query text the report can still
    hold a line that starts with querySQL, since the title is copied into
    the report as it is. *)
Lemma querysql_line_counterexample :
  ~ (forall (question : string) (w : Network) (a : pyval) (f : Answer) (report : string),
       success_body w = Some a -> answer_fields a = Some f ->
       ans_sql f = PStr EmptyString ->
       fst (get_ossinsight question w) = Return report ->
       forall l, In l (lines report) -> ~ starts_with l "querySQL").
Proof.
  intros H.
  refine (H "stars?" (mkNetwork [mkResponse 200 (Some two_line_title_answer)] [])
            two_line_title_answer
            (mkAnswer (PStr ("Stars" ++ nl ++ "querySQL: none")) (PStr EmptyString) None None)
            ("Question: Stars" ++ nl ++ "querySQL: none" ++ nl ++ nl ++ "Result: N/A")
            eq_refl eq_refl eq_refl eq_refl "querySQL: none" _ _).
  - cbv. auto.
  - now exists ": none".
Qed.

(** C4, amended: on the success path a query section is emitted exactly
    when the query text differs from the empty text; it is then the second
    section, right after the question section and right before the result
    section, and reads querySQL: followed by the query text.  When the
    query text is empty no emitted section starts with the word querySQL,
    and no line of the report does either if the title and the error are
    single-line texts and the rows are mappings. *)
Theorem querysql_section_iff (question : string) (w : Network) (a : pyval) (f : Answer) :
  success_body w = Some a -> answer_fields a = Some f ->
  exists sections,
    report_components a = Return sections
    /\ fst (get_ossinsight question w) = Return (join (nl ++ nl) sections)
    /\ ((exists s, In s sections /\ starts_with s "querySQL: ") <-> ans_sql f <> PStr EmptyString)
    /\ (ans_sql f <> PStr EmptyString ->
        exists result rest,
          sections = ("Question: " ++ py_str (ans_title f))
                       :: ("querySQL: " ++ py_str (ans_sql f)) :: result :: rest
          /\ starts_with result "Result")
    /\ (ans_sql f = PStr EmptyString ->
        Forall (fun s => ~ starts_with s "querySQL") sections
        /\ (has_char (chr 10) (py_str (ans_title f)) = false ->
            (forall rows, ans_rows f = Some rows -> forallb mapping_row rows = true) ->
            (forall e, ans_error f = Some e -> has_char (chr 10) (py_str e) = false) ->
            forall l, In l (lines (join (nl ++ nl) sections)) -> ~ starts_with l "querySQL")).
Proof.
  intros Hw Hf.
  pose proof (report_components_spec _ _ Hf) as Hcs.
  exists (spec_sections f).
  split; [exact Hcs|]. split; [now apply (get_ossinsight_report question w a)|].
  assert (Hnone : ne_str (ans_sql f) EmptyString = false ->
                  Forall (fun s => ~ starts_with s "querySQL") (spec_sections f)).
  { intros E. unfold spec_sections, spec_sql_section, spec_error_section. rewrite E.
    assert (~ starts_with (spec_result_section f) "querySQL").
    { unfold spec_result_section. destruct (ans_rows f) as [[|r rs]|]; other_word. }
    destruct (ans_error f); cbn [app]; repeat constructor; (assumption || other_word). }
  split; [|split].
  - rewrite <- ne_str_empty. split.
    + intros (s & Hin & Hs). destruct (ne_str (ans_sql f) EmptyString) eqn:E; [reflexivity|].
      exfalso. pose proof (Hnone eq_refl) as Hall. rewrite Forall_forall in Hall.
      apply (Hall s Hin). destruct Hs as [rest ->]. now exists (": " ++ rest).
    + intros E. exists ("querySQL: " ++ py_str (ans_sql f)). split.
      * unfold spec_sections, spec_sql_section. rewrite E. right; left; reflexivity.
      * auto with sections.
  - rewrite <- ne_str_empty. intros E.
    exists (spec_result_section f), (spec_error_section f). split.
    + unfold spec_sections, spec_sql_section. now rewrite E.
    + auto with sections.
  - intros E.
    assert (E' : ne_str (ans_sql f) EmptyString = false) by (now rewrite E).
    split; [now apply Hnone|].
    intros Htitle Hrows Herror l Hl.
    apply lines_join_blank in Hl. destruct Hl as [->|(s & Hs & Hl)]; [other_word|].
    unfold spec_sections, spec_sql_section in Hs. rewrite E' in Hs. cbn [app] in Hs.
    destruct Hs as [<-|[<-|Hs]].
    + rewrite lines_one in Hl by (reflexivity || assumption).
      destruct Hl as [<-|[]]. other_word.
    + destruct (result_section_lines f l Hrows Hl) as [[rest ->]|[rest ->]]; other_word.
    + unfold spec_error_section in Hs. destruct (ans_error f) as [e|] eqn:He; [|contradiction].
      destruct Hs as [<-|[]].
      rewrite lines_one in Hl by (reflexivity || now apply Herror).
      destruct Hl as [<-|[]]. other_word.
Qed.

Lemma querysql_section_iff_witness :
  exists sections,
    report_components sample_answer = Return sections
    /\ fst (get_ossinsight "who leads?" sample_network) = Return (join (nl ++ nl) sections)
    /\ ((exists s, In s sections /\ starts_with s "querySQL: ")
        <-> ans_sql sample_fields <> PStr EmptyString)
    /\ (ans_sql sample_fields <> PStr EmptyString ->
        exists result rest,
          sections = ("Question: " ++ py_str (ans_title sample_fields))
                       :: ("querySQL: " ++ py_str (ans_sql sample_fields)) :: result :: rest
          /\ starts_with result "Result")
    /\ (ans_sql sample_fields = PStr EmptyString ->
        Forall (fun s => ~ starts_with s "querySQL") sections
        /\ (has_char (chr 10) (py_str (ans_title sample_fields)) = false ->
            (forall rows, ans_rows sample_fields = Some rows -> forallb mapping_row rows = true) ->
            (forall e, ans_error sample_fields = Some e -> has_char (chr 10) (py_str e) = false) ->
            forall l, In l (lines (join (nl ++ nl) sections)) -> ~ starts_with l "querySQL")).
Proof.
  apply (querysql_section_iff "who leads?" sample_network sample_answer sample_fields);
    reflexivity.
Defined.

(** ** Every report that is returned *)

Lemma Return_inj {A} (x y : A) : Return x = Return y -> x = y.
Proof. intros H. now injection H. Qed.

Tactic Notation "peel" hyp(H) "as" ident(x) ident(Hx) :=
  apply bind_return in H; destruct H as (x & Hx & H).

(** Whatever the body, a list of sections that comes back has this shape. *)
Lemma report_components_shape (a : pyval) (cs : list string) :
  report_components a = Return cs ->
  exists title sql_part result error_part,
    cs = ("Question: " ++ title) :: (sql_part ++ result :: error_part)%list
    /\ (sql_part = [] \/ exists s, sql_part = ["querySQL: " ++ s])
    /\ (result = "Result: N/A" \/ exists body, result = "Result:" ++ nl ++ "  " ++ body)
    /\ (error_part = [] \/ exists e, error_part = ["Error: " ++ e]).
Proof.
  intros H. unfold report_components in H. cbv zeta in H.
  peel H as q Hq. peel H as title Ht. peel H as qy Hqy. peel H as sql Hs.
  peel H as rc Hrc.
  assert (Hsql : exists sql_part,
            rc = ("Question: " ++ py_str title) :: sql_part
            /\ (sql_part = [] \/ exists s, sql_part = ["querySQL: " ++ s])).
  { destruct (ne_str sql EmptyString).
    - peel Hrc as qy' Hqy'. peel Hrc as sql' Hs'. apply Return_inj in Hrc. subst rc.
      exists ["querySQL: " ++ py_str sql']. split; [reflexivity|]. right; eauto.
    - apply Return_inj in Hrc. subst rc. exists []; auto. }
  destruct Hsql as (sql_part & -> & Hsql).
  peel H as res Hres. peel H as result Hresult.
  assert (Hshape : result = "Result: N/A"
                   \/ exists body, result = "Result:" ++ nl ++ "  " ++ body).
  { destruct (is_none res).
    - apply Return_inj in Hresult. now left.
    - peel Hresult as res' Hres'. peel Hresult as rows Hrows. peel Hresult as n Hn.
      destruct (Nat.eqb n 0).
      + apply Return_inj in Hresult. now left.
      + peel Hresult as res'' Hres''. peel Hresult as rows' Hrows'.
        peel Hresult as each Heach. apply Return_inj in Hresult. right; eauto. }
  peel H as err Herr.
  exists (py_str title), sql_part, result.
  destruct (negb (is_none err)).
  - peel H as err' Herr'. apply Return_inj in H. subst cs.
    exists ["Error: " ++ py_str err'].
    split; [|split; [assumption|split; [assumption|right; eauto]]].
    unfold list_append. cbn [app]. now rewrite <- app_assoc.
  - apply Return_inj in H. subst cs. exists [].
    split; [|split; [assumption|split; [assumption|now left]]].
    reflexivity.
Qed.

(** C5: on the success path the last emitted section is the error section,
    the text Error: followed by the error value, exactly when the error
    field is present and not null, and the report text then ends with a
    blank line and that section; when the error field is absent or null no
    emitted section starts with the word Error. *)
Theorem error_section_iff (question : string) (w : Network) (a : pyval) (f : Answer) :
  success_body w = Some a -> answer_fields a = Some f ->
  exists sections,
    report_components a = Return sections
    /\ fst (get_ossinsight question w) = Return (join (nl ++ nl) sections)
    /\ (starts_with (last sections EmptyString) "Error: " <-> ans_error f <> None)
    /\ (forall e, ans_error f = Some e ->
        last sections EmptyString = "Error: " ++ py_str e
        /\ exists before,
             join (nl ++ nl) sections = before ++ (nl ++ nl) ++ "Error: " ++ py_str e)
    /\ (ans_error f = None -> Forall (fun s => ~ starts_with s "Error:") sections).
Proof.
  intros Hw Hf.
  pose proof (report_components_spec _ _ Hf) as Hcs.
  exists (spec_sections f).
  split; [exact Hcs|]. split; [now apply (get_ossinsight_report question w a)|].
  assert (Hres : ~ starts_with (spec_result_section f) "Error:").
  { unfold spec_result_section. destruct (ans_rows f) as [[|r rs]|]; other_word. }
  assert (Hsome : forall e, ans_error f = Some e ->
            spec_sections f
            = list_append (("Question: " ++ py_str (ans_title f))
                             :: (spec_sql_section f ++ [spec_result_section f])%list)
                          ("Error: " ++ py_str e)).
  { intros e He. unfold spec_sections, spec_error_section, list_append. rewrite He.
    cbn [app]. now rewrite <- app_assoc. }
  assert (Hnone : ans_error f = None ->
            last (spec_sections f) EmptyString = spec_result_section f).
  { intros He. unfold spec_sections, spec_error_section. rewrite He.
    rewrite app_comm_cons. apply last_last. }
  split; [|split].
  - split.
    + intros Hlast He. rewrite (Hnone He) in Hlast. apply Hres.
      destruct Hlast as [rest ->]. now exists (" " ++ rest).
    + destruct (ans_error f) as [e|] eqn:He; [|intros H; now elim H].
      intros _. rewrite (Hsome e eq_refl). unfold list_append. rewrite last_last.
      auto with sections.
  - intros e He. rewrite (Hsome e He). split.
    + unfold list_append. apply last_last.
    + eexists. apply join_snoc. discriminate.
  - intros He. unfold spec_sections, spec_sql_section, spec_error_section. rewrite He.
    destruct (ne_str (ans_sql f) EmptyString); cbn [app];
      repeat constructor; (assumption || other_word).
Qed.

Lemma error_section_iff_witness :
  exists sections,
    report_components failed_answer = Return sections
    /\ fst (get_ossinsight "who leads?" failed_network) = Return (join (nl ++ nl) sections)
    /\ (starts_with (last sections EmptyString) "Error: " <-> ans_error failed_fields <> None)
    /\ (forall e, ans_error failed_fields = Some e ->
        last sections EmptyString = "Error: " ++ py_str e
        /\ exists before,
             join (nl ++ nl) sections = before ++ (nl ++ nl) ++ "Error: " ++ py_str e)
    /\ (ans_error failed_fields = None -> Forall (fun s => ~ starts_with s "Error:") sections).
Proof.
  apply (error_section_iff "who leads?" failed_network failed_answer failed_fields);
    reflexivity.
Defined.

(** C10: a report of the success path has at least two and at most four
    sections.  The question section is always the first and a result
    section is always there; the only sections that may be missing are
    the query section and the error section.  This holds for every body
    on which the function returns, and it does return on every body of
    the expected shape. *)
Theorem section_count_bounds (question : string) (w : Network) (a : pyval) :
  success_body w = Some a ->
  (forall f, answer_fields a = Some f ->
     exists report, fst (get_ossinsight question w) = Return report)
  /\ (forall report, fst (get_ossinsight question w) = Return report ->
      exists title sql_part result error_part,
        let sections := ("Question: " ++ title) :: (sql_part ++ result :: error_part)%list in
        report_components a = Return sections
        /\ report = join (nl ++ nl) sections
        /\ 2 <= List.length sections <= 4
        /\ starts_with result "Result"
        /\ List.length sql_part <= 1
        /\ Forall (fun s => starts_with s "querySQL: ") sql_part
        /\ List.length error_part <= 1
        /\ Forall (fun s => starts_with s "Error: ") error_part).
Proof.
  intros Hw. split.
  - intros f Hf. eexists.
    apply (get_ossinsight_report question w a _ Hw (report_components_spec _ _ Hf)).
  - intros report H. rewrite (get_ossinsight_success _ _ _ Hw) in H.
    peel H as cs Hcs. apply Return_inj in H. subst report.
    destruct (report_components_shape _ _ Hcs)
      as (title & sql_part & result & error_part & -> & Hsql & Hres & Herr).
    exists title, sql_part, result, error_part. cbv zeta.
    split; [assumption|]. split; [reflexivity|].
    assert (starts_with result "Result").
    { destruct Hres as [->|[body ->]];
        [now exists ": N/A" | now exists (":" ++ nl ++ "  " ++ body)]. }
    destruct Hsql as [->|[s ->]]; destruct Herr as [->|[e ->]];
      cbn [List.length app]; repeat split; try lia; try assumption;
      repeat constructor; auto with sections.
Qed.

Lemma section_count_bounds_witness :
  (forall f, answer_fields sample_answer = Some f ->
     exists report, fst (get_ossinsight "who leads?" sample_network) = Return report)
  /\ (forall report, fst (get_ossinsight "who leads?" sample_network) = Return report ->
      exists title sql_part result error_part,
        let sections := ("Question: " ++ title) :: (sql_part ++ result :: error_part)%list in
        report_components sample_answer = Return sections
        /\ report = join (nl ++ nl) sections
        /\ 2 <= List.length sections <= 4
        /\ starts_with result "Result"
        /\ List.length sql_part <= 1
        /\ Forall (fun s => starts_with s "querySQL: ") sql_part
        /\ List.length error_part <= 1
        /\ Forall (fun s => starts_with s "Error: ") error_part).
Proof.
  apply (section_count_bounds "who leads?" sample_network sample_answer).
  reflexivity.
Defined.

(** ** The request and the failure path *)

Lemma get_ossinsight_failure (question : string) (w : Network)
    (r : Response) (rest : list Response) :
  replies w = r :: rest -> status_code r <> 200%Z ->
  get_ossinsight question w
  = (Return ("Request to " ++ url ++ " failed with status code: " ++ str_int (status_code r)),
     mkNetwork rest (list_append (sent w) (request_for question))).
Proof.
  intros Hr Hs. rewrite get_ossinsight_run, Hr.
  apply Z.eqb_neq in Hs. now rewrite Hs.
Qed.

(** C2: when the reply has a status other than 200 the call returns a text
    that holds the request URL and the status code in decimal; it raises
    nothing, it takes that one reply and it sends that one request. *)
Theorem failure_status_message (question : string) (w : Network)
    (r : Response) (rest : list Response) :
  replies w = r :: rest -> status_code r <> 200%Z ->
  let text := "Request to https://api.ossinsight.io/explorer/answer failed with status code: "
              ++ str_int (status_code r) in
  get_ossinsight question w
    = (Return text, mkNetwork rest (sent w ++ [request_for question])%list)
  /\ contains text (req_url (request_for question))
  /\ contains text (str_int (status_code r)).
Proof.
  intros Hr Hs. cbv zeta. split; [|split].
  - now rewrite (get_ossinsight_failure question w r rest Hr Hs).
  - exists "Request to ", (" failed with status code: " ++ str_int (status_code r)).
    reflexivity.
  - exists "Request to https://api.ossinsight.io/explorer/answer failed with status code: ",
           EmptyString.
    now rewrite append_nil_r.
Qed.

Lemma failure_status_message_witness :
  let text := "Request to https://api.ossinsight.io/explorer/answer failed with status code: "
              ++ str_int 503 in
  get_ossinsight "who leads?" (mkNetwork [mkResponse 503 None; mkResponse 200 None] [])
    = (Return text, mkNetwork [mkResponse 200 None] [request_for "who leads?"])
  /\ contains text (req_url (request_for "who leads?"))
  /\ contains text (str_int 503).
Proof.
  apply (failure_status_message "who leads?"
           (mkNetwork [mkResponse 503 None; mkResponse 200 None] [])
           (mkResponse 503 None) [mkResponse 200 None]).
  - reflexivity.
  - simpl. lia.
Defined.

(** C6, as stated, fails: a reply with status 200 whose body is the empty
    object makes the lookup of the question raise, and the exception
    reaches the caller. *)
Lemma missing_field_counterexample :
  ~ (forall (question : string) (r : Response) (rest : list Response) (log : list Request),
       exists text, fst (get_ossinsight question (mkNetwork (r :: rest) log)) = Return text).
Proof.
  intros H.
  destruct (H "who leads?" (mkResponse 200 (Some (PDict []))) [] []) as [text Htext].
  discriminate Htext.
Qed.

(** What the call does on that reply, and on a reply that is not JSON. *)
Example missing_question_raises :
  fst (get_ossinsight "who leads?" (mkNetwork [mkResponse 200 (Some (PDict []))] []))
  = Raise (KeyError "question").
Proof. reflexivity. Qed.

Example missing_rows_raises :
  fst (get_ossinsight "who leads?"
         (mkNetwork [mkResponse 200 (Some (PDict [
            ("question", PDict [("title", PStr "t")]);
            ("query", PDict [("sql", PStr "s")]);
            ("result", PDict [])]))] []))
  = Raise (KeyError "rows").
Proof. reflexivity. Qed.

Example undecodable_body_raises :
  fst (get_ossinsight "who leads?" (mkNetwork [mkResponse 200 None] []))
  = Raise JSONDecodeError.
Proof. reflexivity. Qed.

(** C6, amended: the call returns a text and raises nothing when the reply
    has a status other than 200, whatever its body, and when the reply has
    status 200 and a body of the expected shape: [question.title] and
    [query.sql] present, [result] absent, null or with a list of rows. *)
Theorem returns_text_on_expected_replies (question : string) (w : Network)
    (r : Response) (rest : list Response) :
  replies w = r :: rest ->
  status_code r <> 200%Z
    \/ (exists a f, body_json r = Some a /\ answer_fields a = Some f) ->
  exists text, fst (get_ossinsight question w) = Return text.
Proof.
  intros Hr [Hs | (a & f & Ha & Hf)].
  - rewrite (get_ossinsight_failure question w r rest Hr Hs). eexists. reflexivity.
  - destruct (Z.eq_dec (status_code r) 200) as [E|E].
    + eexists. apply (get_ossinsight_report question w a).
      * unfold success_body. rewrite Hr, E. exact Ha.
      * apply (report_components_spec _ _ Hf).
    + rewrite (get_ossinsight_failure question w r rest Hr E). eexists. reflexivity.
Qed.

Lemma returns_text_on_expected_replies_witness :
  exists text, fst (get_ossinsight "who leads?" failed_network) = Return text.
Proof.
  apply (returns_text_on_expected_replies "who leads?" failed_network
           (mkResponse 200 (Some failed_answer)) []).
  - reflexivity.
  - right. exists failed_answer, failed_fields. split; reflexivity.
Defined.

(** C7: every call sends exactly one request, whatever the question and
    whatever comes back: a POST to the fixed endpoint, with the JSON
    content type header and a body made of the question and of
    [ignoreCache] set to true; at most one reply is taken. *)
Theorem one_post_per_call (question : string) (w : Network) :
  sent (snd (get_ossinsight question w))
  = (sent w ++ [mkRequest "POST" "https://api.ossinsight.io/explorer/answer"
                          [("Content-Type", "application/json")]
                          (PDict [("question", PStr question);
                                  ("ignoreCache", PBool true)])])%list
  /\ replies (snd (get_ossinsight question w)) = tl (replies w).
Proof.
  rewrite get_ossinsight_run.
  destruct (replies w) as [|r rest]; split; reflexivity.
Qed.

(** C8: the text that a call gives back is a function of the reply alone.
    Two calls that meet the same reply return the same outcome, whatever
    was sent before and whatever replies are still to come; in particular
    a second call right after a first one, with the same reply, returns
    what the first returned. *)
Theorem same_reply_same_text (question : string) (r : Response)
    (rest1 rest2 : list Response) (log1 log2 : list Request) :
  fst (get_ossinsight question (mkNetwork (r :: rest1) log1))
  = fst (get_ossinsight question (mkNetwork (r :: rest2) log2))
  /\ (let first := get_ossinsight question (mkNetwork (r :: r :: rest1) log1) in
      let second := get_ossinsight question (snd first) in
      fst first = fst second).
Proof.
  split.
  - now rewrite !get_ossinsight_run.
  - cbv zeta. now rewrite !get_ossinsight_run.
Qed.

(** C9: the question is not checked.  For every question, the empty one
    included, the request goes out with that question in its body, and
    the outcome of the call is the one that any other question would have
    had on the same network. *)
Theorem question_not_validated (question other : string) (w : Network) :
  sent (snd (get_ossinsight question w)) = (sent w ++ [request_for question])%list
  /\ getitem (req_json (request_for question)) "question" = Return (PStr question)
  /\ sent (snd (get_ossinsight EmptyString w)) = (sent w ++ [request_for EmptyString])%list
  /\ fst (get_ossinsight question w) = fst (get_ossinsight other w)
  /\ fst (get_ossinsight EmptyString w) = fst (get_ossinsight other w)
  /\ replies (snd (get_ossinsight EmptyString w)) = replies (snd (get_ossinsight other w)).
Proof.
  rewrite !get_ossinsight_run.
  destruct (replies w) as [|r rest]; repeat split.
Qed.

(** * Further properties of the notebook's code *)

(** ** Substrings *)

Lemma prefix_starts_with (p s : string) :
  String.prefix p s = true <-> starts_with s p.
Proof.
  revert s. induction p as [|c p IH]; intros s.
  - split; [intros _; now exists s | intros _; destruct s; reflexivity].
  - destruct s as [|d s]; simpl.
    + split; [discriminate | intros [rest H]; discriminate H].
    + destruct (ascii_dec c d) as [->|Hne].
      * rewrite IH. split; intros [rest H]; exists rest.
        -- simpl. now rewrite H.
        -- simpl in H. now injection H.
      * split; [discriminate|]. intros [rest H]. simpl in H.
        injection H as H1 H2. congruence.
Qed.

Lemma find_sub_contains (needle hay : string) :
  find_sub needle hay = true <-> contains hay needle.
Proof.
  induction hay as [|c hay IH].
  - cbn [find_sub]. rewrite orb_false_r, prefix_starts_with. split.
    + intros [rest H]. exists EmptyString, rest. exact H.
    + intros (pre & post & H). destruct pre as [|d pre]; [|discriminate H].
      now exists post.
  - cbn [find_sub]. rewrite orb_true_iff, prefix_starts_with, IH. split.
    + intros [[rest H] | (pre & post & H)].
      * exists EmptyString, rest. exact H.
      * exists (String c pre), post. simpl. now rewrite H.
    + intros (pre & post & H). destruct pre as [|d pre].
      * left. now exists post.
      * right. exists pre, post. simpl in H. now injection H.
Qed.

(** ** What the returned text says about the status *)

Lemma join_head (sep x : string) (l : list string) : starts_with (join sep (x :: l)) x.
Proof.
  unfold join. destruct l as [|y l].
  - exists EmptyString. now rewrite append_nil_r.
  - now exists (sep ++ String.concat sep (y :: l)).
Qed.

Lemma append_inj_l (p a b : string) : p ++ a = p ++ b -> a = b.
Proof.
  induction p as [|c p IH]; simpl; intros H; [exact H|].
  injection H as H. now apply IH.
Qed.

Lemma to_int_proper (z : Z) : Z.to_int z <> Decimal.Pos Decimal.Nil /\ Z.to_int z <> Decimal.Neg Decimal.Nil.
Proof.
  destruct z as [|p|p]; simpl; split; try discriminate;
    intros H; injection H as H; now apply (Unsigned.to_uint_nonnil p).
Qed.

Lemma str_int_inj (a b : Z) : str_int a = str_int b -> a = b.
Proof.
  unfold str_int. intros H.
  apply (f_equal NilZero.int_of_string) in H.
  destruct (to_int_proper a) as [Ha1 Ha2]. destruct (to_int_proper b) as [Hb1 Hb2].
  rewrite !NilZero.isi in H by assumption.
  injection H as H. apply (f_equal Z.of_int) in H. now rewrite !DecimalZ.of_to in H.
Qed.

(** X1: the first words of the returned text tell the two paths apart.  A
    text returned for a reply with status 200 starts with Question: and
    never with Request to, and a text returned for any other status starts
    with Request to and never with Question: . *)
Theorem text_tells_status (question : string) (w : Network)
    (r : Response) (rest : list Response) (text : string) :
  replies w = r :: rest ->
  fst (get_ossinsight question w) = Return text ->
  (starts_with text "Question: " <-> status_code r = 200%Z)
  /\ (starts_with text "Request to " <-> status_code r <> 200%Z).
Proof.
  intros Hr H. rewrite get_ossinsight_run, Hr in H. cbn [fst] in H.
  destruct (status_code r =? 200)%Z eqn:E.
  - apply Z.eqb_eq in E. peel H as a Ha. peel H as cs Hcs.
    apply Return_inj in H. subst text.
    destruct (report_components_shape _ _ Hcs) as (title & sqlp & res & errp & -> & _).
    destruct (join_head (nl ++ nl) ("Question: " ++ title) (sqlp ++ res :: errp)) as [tail ->].
    split; split; intros H; try assumption.
    + exists (title ++ tail). now rewrite append_assoc.
    + exfalso. revert H. rewrite append_assoc. other_word.
    + contradiction.
  - apply Z.eqb_neq in E. apply Return_inj in H. subst text.
    split; split; intros H; try assumption.
    + exfalso. revert H. other_word.
    + contradiction.
    + unfold url. eexists. reflexivity.
Qed.

Lemma text_tells_status_witness :
  (starts_with ("Question: Top developers" ++ nl ++ nl ++ "Result: N/A" ++ nl ++ nl
                  ++ "Error: query timed out") "Question: "
   <-> status_code (mkResponse 200 (Some failed_answer)) = 200%Z)
  /\ (starts_with ("Question: Top developers" ++ nl ++ nl ++ "Result: N/A" ++ nl ++ nl
                     ++ "Error: query timed out") "Request to "
      <-> status_code (mkResponse 200 (Some failed_answer)) <> 200%Z).
Proof.
  apply (text_tells_status "who leads?" failed_network
           (mkResponse 200 (Some failed_answer)) []); reflexivity.
Defined.

(** X3: the failure text determines the status code.  Two calls that both
    meet a status other than 200 return the same text only when the two
    status codes are equal. *)
Theorem failure_text_gives_status (q1 q2 : string) (w1 w2 : Network)
    (r1 r2 : Response) (rest1 rest2 : list Response) :
  replies w1 = r1 :: rest1 -> replies w2 = r2 :: rest2 ->
  status_code r1 <> 200%Z -> status_code r2 <> 200%Z ->
  fst (get_ossinsight q1 w1) = fst (get_ossinsight q2 w2) ->
  status_code r1 = status_code r2.
Proof.
  intros H1 H2 S1 S2 H.
  rewrite (get_ossinsight_failure q1 w1 r1 rest1 H1 S1) in H.
  rewrite (get_ossinsight_failure q2 w2 r2 rest2 H2 S2) in H.
  cbn [fst] in H. apply Return_inj in H.
  apply append_inj_l in H. apply append_inj_l in H. apply append_inj_l in H.
  now apply str_int_inj.
Qed.

Lemma failure_text_gives_status_witness :
  status_code (mkResponse 503 None) = status_code (mkResponse 503 (Some PNone)).
Proof.
  apply (failure_text_gives_status "who leads?" "who follows?"
           (mkNetwork [mkResponse 503 None] [])
           (mkNetwork [mkResponse 503 (Some PNone); mkResponse 200 None] [])
           (mkResponse 503 None) (mkResponse 503 (Some PNone)) [] [mkResponse 200 None]);
    try reflexivity; simpl; lia.
Defined.

(** ** The lines of a report *)

Lemma lines_join_cons (x y : string) (l : list string) :
  lines (join (nl ++ nl) (x :: y :: l))
  = (lines x ++ EmptyString :: lines (join (nl ++ nl) (y :: l)))%list.
Proof.
  unfold lines, join.
  change (String.concat (nl ++ nl) (x :: y :: l))
    with (x ++ String (chr 10) (EmptyString ++ String (chr 10) (String.concat (nl ++ nl) (y :: l)))).
  now rewrite !split_on_sep.
Qed.

Lemma result_section_lines_eq (f : Answer) :
  (forall rows, ans_rows f = Some rows -> forallb mapping_row rows = true) ->
  lines (spec_result_section f)
  = match ans_rows f with
    | None | Some [] => ["Result: N/A"]
    | Some rows => "Result:" :: map (fun row => "  " ++ py_str row) rows
    end.
Proof.
  intros Hrows. unfold spec_result_section.
  destruct (ans_rows f) as [[|r rs]|]; try reflexivity.
  apply lines_listing; [reflexivity|].
  specialize (Hrows _ eq_refl). rewrite forallb_forall in Hrows.
  apply Forall_forall. intros row Hin. apply mapping_row_single_line, Hrows, Hin.
Qed.

(** X2: the layout of the report, line by line.  When the title, the query
    text and the error are single-line texts and the rows are mappings, the
    report is: the question line; if the query text is not empty, an empty
    line and the query line; an empty line; the line Result: N/A, or the
    line Result: followed by one indented line for each row; and, if there
    is an error, an empty line and the error line. *)
Theorem report_line_layout (question : string) (w : Network) (a : pyval) (f : Answer) :
  success_body w = Some a -> answer_fields a = Some f ->
  has_char (chr 10) (py_str (ans_title f)) = false ->
  has_char (chr 10) (py_str (ans_sql f)) = false ->
  (forall rows, ans_rows f = Some rows -> forallb mapping_row rows = true) ->
  (forall e, ans_error f = Some e -> has_char (chr 10) (py_str e) = false) ->
  exists report,
    fst (get_ossinsight question w) = Return report
    /\ lines report
       = ([("Question: " ++ py_str (ans_title f))%string]
          ++ (if ne_str (ans_sql f) EmptyString
              then [EmptyString; ("querySQL: " ++ py_str (ans_sql f))%string] else [])
          ++ [EmptyString]
          ++ match ans_rows f with
             | None | Some [] => ["Result: N/A"]
             | Some rows => "Result:" :: map (fun row => ("  " ++ py_str row)%string) rows
             end
          ++ match ans_error f with
             | None => []
             | Some e => [EmptyString; ("Error: " ++ py_str e)%string]
             end)%list.
Proof.
  intros Hw Hf Htitle Hsql Hrows Herr.
  exists (join (nl ++ nl) (spec_sections f)). split.
  - apply (get_ossinsight_report question w a _ Hw (report_components_spec _ _ Hf)).
  - rewrite <- (result_section_lines_eq f Hrows).
    assert (Hq : lines ("Question: " ++ py_str (ans_title f))
                 = ["Question: " ++ py_str (ans_title f)])
      by (apply lines_one; [reflexivity | exact Htitle]).
    assert (Hs : lines ("querySQL: " ++ py_str (ans_sql f))
                 = ["querySQL: " ++ py_str (ans_sql f)])
      by (apply lines_one; [reflexivity | exact Hsql]).
    assert (He : forall e, ans_error f = Some e ->
                 lines ("Error: " ++ py_str e) = ["Error: " ++ py_str e])
      by (intros e He; apply lines_one; [reflexivity | now apply Herr]).
    assert (Hone : forall x, lines (join (nl ++ nl) [x]) = lines x) by reflexivity.
    unfold spec_sections, spec_sql_section, spec_error_section.
    destruct (ne_str (ans_sql f) EmptyString); destruct (ans_error f) as [e|];
      cbn [app]; rewrite !lines_join_cons, Hone, ?Hq, ?Hs, ?(He e eq_refl);
      cbn [app]; rewrite ?app_nil_r; reflexivity.
Qed.

Lemma report_line_layout_witness :
  exists report,
    fst (get_ossinsight "who leads?" sample_network) = Return report
    /\ lines report
       = ([("Question: " ++ py_str (ans_title sample_fields))%string]
          ++ (if ne_str (ans_sql sample_fields) EmptyString
              then [EmptyString; ("querySQL: " ++ py_str (ans_sql sample_fields))%string]
              else [])
          ++ [EmptyString]
          ++ match ans_rows sample_fields with
             | None | Some [] => ["Result: N/A"]
             | Some rows => "Result:" :: map (fun row => ("  " ++ py_str row)%string) rows
             end
          ++ match ans_error sample_fields with
             | None => []
             | Some e => [EmptyString; ("Error: " ++ py_str e)%string]
             end)%list.
Proof.
  apply (report_line_layout "who leads?" sample_network sample_answer sample_fields);
    try reflexivity.
  - intros rows H. injection H as <-. reflexivity.
  - intros e H. discriminate H.
Defined.

(** ** The exceptions that reach the caller *)

Lemma bind_raise {A B} (m : outcome A) (k : A -> outcome B) (e : exn) :
  bind m k = Raise e -> m = Raise e \/ exists a, m = Return a /\ k a = Raise e.
Proof.
  destruct m as [a|e']; simpl; intros H; [right; eauto | left].
  injection H as ->. reflexivity.
Qed.

Lemma getitem_raise (v : pyval) (k : string) (e : exn) :
  getitem v k = Raise e ->
  (e = TypeError /\ forall entries, v <> PDict entries)
  \/ (e = KeyError k /\ exists entries, v = PDict entries /\ assoc k entries = None).
Proof.
  destruct v; simpl; intros H;
    try (left; split; [congruence | discriminate]).
  destruct (assoc k entries) eqn:E; [discriminate|].
  right. split; [congruence | eauto].
Qed.

Lemma getitem_return (v x : pyval) (k : string) :
  getitem v k = Return x -> exists entries, v = PDict entries /\ assoc k entries = Some x.
Proof.
  destruct v; simpl; try discriminate.
  destruct (assoc k entries) eqn:E; [|discriminate].
  intros H. injection H as <-. eauto.
Qed.

Lemma dict_get_total (entries : list (string * pyval)) (k : string) :
  exists x, dict_get (PDict entries) k = Return x.
Proof. simpl. destruct (assoc k entries); eauto. Qed.

Lemma py_len_raise (v : pyval) (e : exn) : py_len v = Raise e -> e = TypeError.
Proof. destruct v; simpl; intros H; congruence. Qed.

Lemma py_iter_raise (v : pyval) (e : exn) : py_iter v = Raise e -> e = TypeError.
Proof. destruct v; simpl; intros H; congruence. Qed.
Tactic Notation "crack" hyp(H) "as" ident(x) ident(Hx) :=
  apply bind_raise in H; destruct H as [H | (x & Hx & H)].





Ltac other_key H :=
  apply getitem_raise in H; destruct H as [[H _] | [H _]]; discriminate H.

Lemma keyerror_question (a : pyval) :
  report_components a = Raise (KeyError "question") ->
  exists entries, a = PDict entries /\ assoc "question" entries = None.
Proof.
  intros H. unfold report_components in H. cbv zeta in H.
  crack H as q Hq.
  { apply getitem_raise in H. destruct H as [[H _] | [_ H]]; [discriminate H | exact H]. }
  exfalso.
  destruct (getitem_return _ _ _ Hq) as (entries & -> & _).
  crack H as title Ht; [other_key H|].
  crack H as qy Hqy; [other_key H|].
  crack H as sql Hs; [other_key H|].
  crack H as rc Hrc.
  { destruct (ne_str sql EmptyString); [|discriminate].
    crack H as qy' Hqy'; [other_key H|].
    crack H as sql' Hs'; [other_key H|]. discriminate. }
  crack H as res Hres.
  { destruct (dict_get_total entries "result") as [y Hy]. rewrite Hy in H. discriminate. }
  crack H as result Hresult.
  { destruct (is_none res) eqn:En; [discriminate|].
    crack H as res' Hres'; [other_key H|].
    crack H as rows Hrows; [other_key H|].
    crack H as n Hn; [apply py_len_raise in H; discriminate H|].
    destruct (Nat.eqb n 0); [discriminate|].
    crack H as res'' Hres''; [other_key H|].
    crack H as rows' Hrows'; [other_key H|].
    crack H as each Heach; [apply py_iter_raise in H; discriminate H|]. discriminate. }
  crack H as err Herr.
  { destruct (dict_get_total entries "error") as [y Hy]. rewrite Hy in H. discriminate. }
  destruct (negb (is_none err)); [|discriminate].
  crack H as err' Herr'; [other_key H | discriminate].
Qed.

(** X5: on a reply with status 200 the call raises the key error for
    question exactly when the body is an object that has no question key,
    whatever else the body holds. *)
Theorem missing_question_key (question : string) (w : Network)
    (r : Response) (rest : list Response) :
  replies w = r :: rest -> status_code r = 200%Z ->
  (fst (get_ossinsight question w) = Raise (KeyError "question")
   <-> exists entries, body_json r = Some (PDict entries) /\ assoc "question" entries = None).
Proof.
  intros Hr Hs. rewrite get_ossinsight_run, Hr, Hs. cbn [fst Z.eqb Pos.eqb].
  unfold response_json. split.
  - intros H. destruct (body_json r) as [a|]; [|discriminate]. cbn [bind] in H.
    crack H as cs Hcs; [|discriminate].
    destruct (keyerror_question _ H) as (entries & -> & Hnone). eauto.
  - intros (entries & -> & Hnone). cbn [bind]. unfold report_components.
    cbn [getitem]. rewrite Hnone. reflexivity.
Qed.

Lemma missing_question_key_witness :
  fst (get_ossinsight "who leads?" (mkNetwork [mkResponse 200 (Some (PDict []))] []))
  = Raise (KeyError "question")
  <-> exists entries,
        body_json (mkResponse 200 (Some (PDict []))) = Some (PDict entries)
        /\ assoc "question" entries = None.
Proof.
  apply (missing_question_key "who leads?" (mkNetwork [mkResponse 200 (Some (PDict []))] [])
           (mkResponse 200 (Some (PDict []))) []); reflexivity.
Defined.

(** ** A result that is not as expected *)

(** The sections that come before the result section, and the error section after it, once the title
    and the query text have been found. *)
Lemma report_components_around_result (a t s res : pyval) :
  (q <- getitem a "question" ;; getitem q "title") = Return t ->
  (qy <- getitem a "query" ;; getitem qy "sql") = Return s ->
  dict_get a "result" = Return res -> is_none res = false ->
  exists before after,
    Forall (fun x => ~ starts_with x "Result") (before ++ after)%list
    /\ report_components a
       = (rows <- getitem res "rows" ;;
          n <- py_len rows ;;
          result <- (if Nat.eqb n 0 then Return "Result: N/A"
                     else each <- py_iter rows ;;
                          Return ("Result:" ++ nl ++ "  "
                                  ++ join (nl ++ "  ") (map py_str each))) ;;
          Return (before ++ result :: after)%list).
Proof.
  intros Ht Hs Hres Hnone.
  peel Ht as q Hq. peel Hs as qy Hqy.
  destruct (getitem_return _ _ _ Hq) as (entries & -> & _).
  destruct (dict_get_total entries "error") as [err Herr].
  pose proof (getitem_of_get _ _ _ Hres Hnone) as Hres'.
  unfold report_components.
  exists (("Question: " ++ py_str t)
            :: (if ne_str s EmptyString then ["querySQL: " ++ py_str s] else [])),
         (if is_none err then [] else ["Error: " ++ py_str err]).
  split.
  - destruct (ne_str s EmptyString); destruct (is_none err); cbn [app];
      repeat constructor; other_word.
  - rewrite Hq; cbn [bind]. rewrite Ht; cbn [bind]. rewrite Hqy; cbn [bind].
    rewrite Hs; cbn [bind].
    assert (Hrc : (if ne_str s EmptyString
                   then Return (list_append (list_append [] ("Question: " ++ py_str t))
                                            ("querySQL: " ++ py_str s))
                   else Return (list_append [] ("Question: " ++ py_str t)))
                  = Return (("Question: " ++ py_str t)
                              :: (if ne_str s EmptyString then ["querySQL: " ++ py_str s] else [])))
      by (destruct (ne_str s EmptyString); reflexivity).
    rewrite Hrc; cbn [bind]. clear Hrc.
    set (before := ("Question: " ++ py_str t)
                     :: (if ne_str s EmptyString then ["querySQL: " ++ py_str s] else [])).
    rewrite Hres; cbn [bind]. rewrite Hnone, Hres'; cbn [bind].
    destruct (getitem res "rows") as [rows|e] eqn:Hrows; [|reflexivity]. cbn [bind].
    destruct (py_len rows) as [n|e] eqn:Hn; [|reflexivity]. cbn [bind].
    set (after := if is_none err then [] else ["Error: " ++ py_str err]).
    assert (Htail : forall result,
              (err0 <- dict_get (PDict entries) "error" ;;
               (if negb (is_none err0)
                then err' <- getitem (PDict entries) "error" ;;
                     Return (list_append (list_append before result) ("Error: " ++ py_str err'))
                else Return (list_append before result)))
              = Return (before ++ result :: after)%list).
    { intros result. unfold after. rewrite Herr; cbn [bind].
      destruct (is_none err) eqn:He; cbn [negb].
      - reflexivity.
      - rewrite (getitem_of_get _ _ _ Herr He); cbn [bind].
        unfold list_append. now rewrite <- app_assoc. }
    destruct (Nat.eqb n 0); cbn [bind]; [apply Htail|].
    destruct (py_iter rows) as [each|e]; cbn [bind]; [apply Htail | reflexivity].
Qed.

(** X6: the guard on the result covers a missing or null result only.
    When the title and the query text are there and the result is present
    and not null, the call raises: a type error if the result is not an
    object, the key error for rows if it is an object without rows, and a
    type error if rows is null, a boolean or a number. *)
Theorem result_without_rows (question : string) (w : Network) (a t s res : pyval) :
  success_body w = Some a ->
  (q <- getitem a "question" ;; getitem q "title") = Return t ->
  (qy <- getitem a "query" ;; getitem qy "sql") = Return s ->
  dict_get a "result" = Return res -> is_none res = false ->
  ((forall entries, res <> PDict entries) ->
   fst (get_ossinsight question w) = Raise TypeError)
  /\ (forall entries, res = PDict entries -> assoc "rows" entries = None ->
      fst (get_ossinsight question w) = Raise (KeyError "rows"))
  /\ (forall entries rows, res = PDict entries -> assoc "rows" entries = Some rows ->
      rows = PNone \/ (exists b, rows = PBool b) \/ (exists z, rows = PInt z)
        \/ (exists x, rows = PFloat x) ->
      fst (get_ossinsight question w) = Raise TypeError).
Proof.
  intros Hw Ht Hs Hres Hnone.
  destruct (report_components_around_result a t s res Ht Hs Hres Hnone)
    as (before & after & _ & Hrun).
  rewrite (get_ossinsight_success _ _ _ Hw), Hrun. clear Hrun.
  split; [|split].
  - intros Hnd. destruct res; try reflexivity. now elim (Hnd entries).
  - intros entries -> Hrows. cbn [getitem]. now rewrite Hrows.
  - intros entries rows -> Hrows Hscalar. cbn [getitem]. rewrite Hrows. cbn [bind].
    destruct Hscalar as [-> | [[b ->] | [[z ->] | [x ->]]]]; reflexivity.
Qed.

Lemma result_without_rows_witness :
  ((forall entries, PDict [] <> PDict entries) ->
   fst (get_ossinsight "who leads?" (mkNetwork [mkResponse 200 (Some (with_result (PDict [])))] []))
   = Raise TypeError)
  /\ (forall entries, PDict [] = PDict entries -> assoc "rows" entries = None ->
      fst (get_ossinsight "who leads?" (mkNetwork [mkResponse 200 (Some (with_result (PDict [])))] []))
      = Raise (KeyError "rows"))
  /\ (forall entries rows, PDict [] = PDict entries -> assoc "rows" entries = Some rows ->
      rows = PNone \/ (exists b, rows = PBool b) \/ (exists z, rows = PInt z)
        \/ (exists x, rows = PFloat x) ->
      fst (get_ossinsight "who leads?" (mkNetwork [mkResponse 200 (Some (with_result (PDict [])))] []))
      = Raise TypeError).
Proof.
  apply (result_without_rows "who leads?"
           (mkNetwork [mkResponse 200 (Some (with_result (PDict [])))] [])
           (with_result (PDict [])) (PStr "Top developers") (PStr EmptyString) (PDict []));
    reflexivity.
Defined.

(** X7: rows need only have a length and be iterable.  When rows is a
    non-empty mapping instead of a list, the call returns a report whose
    result section lists the keys of the mapping, one per line, and none of
    its values. *)
Theorem rows_given_as_mapping (question : string) (w : Network) (a t s res : pyval)
    (columns : list (string * pyval)) :
  success_body w = Some a ->
  (q <- getitem a "question" ;; getitem q "title") = Return t ->
  (qy <- getitem a "query" ;; getitem qy "sql") = Return s ->
  dict_get a "result" = Return res ->
  getitem res "rows" = Return (PDict columns) -> columns <> [] ->
  exists before result after,
    fst (get_ossinsight question w) = Return (join (nl ++ nl) (before ++ result :: after)%list)
    /\ Forall (fun x => ~ starts_with x "Result") (before ++ after)%list
    /\ result = "Result:" ++ String.concat EmptyString
                               (map (fun kv => nl ++ "  " ++ fst kv) columns).
Proof.
  intros Hw Ht Hs Hres Hrows Hne.
  assert (Hnone : is_none res = false).
  { destruct (getitem_return _ _ _ Hrows) as (entries & -> & _). reflexivity. }
  destruct (report_components_around_result a t s res Ht Hs Hres Hnone)
    as (before & after & Hother & Hrun).
  exists before, ("Result:" ++ String.concat EmptyString
                                 (map (fun kv => nl ++ "  " ++ fst kv) columns)), after.
  split; [|split; [exact Hother | reflexivity]].
  rewrite (get_ossinsight_success _ _ _ Hw), Hrun, Hrows. clear Hrun.
  destruct columns as [|c columns]; [contradiction|].
  cbn [bind py_len py_iter List.length Nat.eqb].
  assert (Hlist : "Result:" ++ nl ++ "  "
                    ++ join (nl ++ "  ")
                         (map py_str (map (fun kv => PStr (fst kv)) (c :: columns)))
                  = "Result:" ++ String.concat EmptyString
                                   (map (fun kv => nl ++ "  " ++ fst kv) (c :: columns))).
  { f_equal.
    transitivity ((nl ++ "  ")
                    ++ join (nl ++ "  ")
                         (map py_str (map (fun kv => PStr (fst kv)) (c :: columns)))).
    - now rewrite append_assoc.
    - rewrite join_prefixed by discriminate. rewrite map_map.
      rewrite (map_ext (fun kv : string * pyval => (nl ++ "  ") ++ py_str (PStr (fst kv)))
                       (fun kv => nl ++ "  " ++ fst kv)); [reflexivity|].
      intros kv. cbn [py_str]. now rewrite append_assoc. }
  now rewrite Hlist.
Qed.

Lemma rows_given_as_mapping_witness :
  exists before result after,
    fst (get_ossinsight "who leads?"
           (mkNetwork [mkResponse 200 (Some (with_result
              (PDict [("rows", PDict [("login", PStr "torvalds")])])))] []))
    = Return (join (nl ++ nl) (before ++ result :: after)%list)
    /\ Forall (fun x => ~ starts_with x "Result") (before ++ after)%list
    /\ result = "Result:" ++ String.concat EmptyString
                               (map (fun kv => nl ++ "  " ++ fst kv)
                                    [("login", PStr "torvalds")]).
Proof.
  apply (rows_given_as_mapping "who leads?"
           (mkNetwork [mkResponse 200 (Some (with_result
              (PDict [("rows", PDict [("login", PStr "torvalds")])])))] [])
           (with_result (PDict [("rows", PDict [("login", PStr "torvalds")])]))
           (PStr "Top developers") (PStr EmptyString)
           (PDict [("rows", PDict [("login", PStr "torvalds")])])
           [("login", PStr "torvalds")]);
    try reflexivity.
  discriminate.
Defined.

(** X8: the report is made of the four fields only.  Two bodies of the
    expected shape with the same title, query text, rows and error give
    the same report, whatever else they hold and in whatever order. *)
Theorem report_depends_on_fields (q1 q2 : string) (w1 w2 : Network)
    (a1 a2 : pyval) (f : Answer) :
  success_body w1 = Some a1 -> success_body w2 = Some a2 ->
  answer_fields a1 = Some f -> answer_fields a2 = Some f ->
  exists report,
    fst (get_ossinsight q1 w1) = Return report
    /\ fst (get_ossinsight q2 w2) = Return report.
Proof.
  intros H1 H2 F1 F2. exists (join (nl ++ nl) (spec_sections f)). split.
  - apply (get_ossinsight_report q1 w1 a1 _ H1 (report_components_spec _ _ F1)).
  - apply (get_ossinsight_report q2 w2 a2 _ H2 (report_components_spec _ _ F2)).
Qed.

Lemma report_depends_on_fields_witness :
  exists report,
    fst (get_ossinsight "who leads?" failed_network) = Return report
    /\ fst (get_ossinsight "who follows?"
              (mkNetwork [mkResponse 200 (Some (PDict [
                 ("engine", PStr "tidb");
                 ("error", PStr "query timed out");
                 ("query", PDict [("sql", PStr EmptyString); ("id", PInt 7)]);
                 ("question", PDict [("title", PStr "Top developers")])]))] []))
       = Return report.
Proof.
  apply (report_depends_on_fields "who leads?" "who follows?" failed_network
           (mkNetwork [mkResponse 200 (Some (PDict [
              ("engine", PStr "tidb");
              ("error", PStr "query timed out");
              ("query", PDict [("sql", PStr EmptyString); ("id", PInt 7)]);
              ("question", PDict [("title", PStr "Top developers")])]))] [])
           failed_answer
           (PDict [("engine", PStr "tidb");
                   ("error", PStr "query timed out");
                   ("query", PDict [("sql", PStr EmptyString); ("id", PInt 7)]);
                   ("question", PDict [("title", PStr "Top developers")])])
           failed_fields); reflexivity.
Defined.

(** ** The termination check *)

(** X9: for a message whose content is a text, the termination check
    returns true exactly when TERMINATE occurs somewhere in that text. *)
Theorem termination_on_text (entries : list (string * pyval)) (s : string) :
  assoc "content" entries = Some (PStr s) ->
  exists b, is_termination_msg (PDict entries) = Return b
            /\ (b = true <-> contains s "TERMINATE").
Proof.
  intros H. exists (find_sub "TERMINATE" s). split.
  - unfold is_termination_msg. cbn [getitem]. rewrite H. reflexivity.
  - apply find_sub_contains.
Qed.

Lemma termination_on_text_witness :
  exists b, is_termination_msg (PDict closing_message) = Return b
            /\ (b = true <-> contains "All done. TERMINATE" "TERMINATE").
Proof.
  apply (termination_on_text closing_message "All done. TERMINATE"). reflexivity.
Defined.

(** X10: the termination check returns a boolean exactly when the message
    is an object whose content is a text, a list or a mapping.  It raises
    the key error for content when the message has no content, and a type
    error when the content is null; it does not return false there. *)
Theorem termination_check_returns (msg : pyval) :
  ((exists b, is_termination_msg msg = Return b)
   <-> exists entries c,
         msg = PDict entries /\ assoc "content" entries = Some c
         /\ ((exists s, c = PStr s) \/ (exists items, c = PList items)
             \/ (exists d, c = PDict d)))
  /\ (forall entries, msg = PDict entries -> assoc "content" entries = None ->
      is_termination_msg msg = Raise (KeyError "content"))
  /\ (forall entries, msg = PDict entries -> assoc "content" entries = Some PNone ->
      is_termination_msg msg = Raise TypeError).
Proof.
  unfold is_termination_msg. split; [split|split].
  - intros [b H]. peel H as c Hc.
    destruct (getitem_return _ _ _ Hc) as (entries & -> & Hassoc).
    exists entries, c. split; [reflexivity|]. split; [exact Hassoc|].
    destruct c; try discriminate H; eauto.
  - intros (entries & c & -> & Hassoc & Hc). cbn [getitem]. rewrite Hassoc. cbn [bind].
    destruct Hc as [[s ->] | [[items ->] | [d ->]]]; eexists; reflexivity.
  - intros entries -> H. cbn [getitem]. now rewrite H.
  - intros entries -> H. cbn [getitem]. now rewrite H.
Qed.

(** X11: for a message whose content is a list, the termination check
    returns true exactly when one of the items is the text TERMINATE
    itself; an item that only contains it does not count. *)
Theorem termination_on_list (entries : list (string * pyval)) (items : list pyval) :
  assoc "content" entries = Some (PList items) ->
  exists b, is_termination_msg (PDict entries) = Return b
            /\ (b = true <-> In (PStr "TERMINATE") items).
Proof.
  intros H. eexists. split.
  - unfold is_termination_msg. cbn [getitem]. rewrite H. reflexivity.
  - rewrite existsb_exists. split.
    + intros (x & Hin & Hx). destruct x; try discriminate Hx.
      apply String.eqb_eq in Hx. now subst.
    + intros Hin. exists (PStr "TERMINATE"). split; [exact Hin | reflexivity].
Qed.

Lemma termination_on_list_witness :
  exists b, is_termination_msg (PDict parts_message) = Return b
            /\ (b = true <-> In (PStr "TERMINATE") [PStr "All done. TERMINATE"]).
Proof.
  apply (termination_on_list parts_message [PStr "All done. TERMINATE"]). reflexivity.
Defined.
